(** * coaching-tree: the [add_coaching_node] handler and its DynamoDB gateway

    A shallow embedding of [src/add_coaching_node.py] and [src/db/db.py].

    Python values are a tree type [pyval]; the interpreter state the two
    files touch is a record [world]; code that can raise runs in a state
    and exception monad [Py].  What the two files import ([json], [uuid],
    [boto3]) is an interface, the class [Runtime]: the development is
    stated for every runtime, and [Ref] gives one that computes. *)

From Stdlib Require Import ZArith String Ascii.
From Stdlib Require Import Floats.PrimFloat.
From stdpp Require Import gmap strings list fin_maps pretty.

Set Warnings "-register-all".
Set Default Proof Using "Type".
Open Scope string_scope.
Open Scope list_scope.

(** ** Python values *)

(** The values a decoded JSON document is made of, plus two kinds of
    object the code holds by reference: a boto3 client ([PClient], the
    handle names the client object) and an object that outlives a call
    and may be shared between calls ([PRef], an address in the heap of
    the [world]).  A value that nothing else refers to (what
    [json.loads] returns, the item being built) is carried as it is.
    A [dict] with string keys is a [gmap string pyval]. *)
Inductive pyval :=
| PNone
| PBool (b : bool)
| PInt (z : Z)
| PFloat (f : PrimFloat.float)
| PStr (s : string)
| PList (l : list pyval)
| PDict (d : gmap string pyval)
| PClient (handle : nat)
| PRef (addr : nat).

(** The exceptions that can cross the two files.  [BotoError] stands for
    whatever botocore raises (NoRegionError, ClientError,
    ParamValidationError, EndpointConnectionError, ...). *)
Inductive exn :=
| KeyError (key : string)
| TypeError
| AttributeError (attr : string)
| JSONDecodeError
| BotoError (name : string).

(** Calls made to boto3, in the order they happen. *)
Inductive event :=
| NewClient (service : string)
| PutItem (handle : nat) (TableName Item : pyval).

(** The two list objects created when the [def put_person] statement is
    executed, [put_person.__defaults__ = ([], [])]: one object per
    parameter, shared by every call that omits that parameter. *)
Definition children_default : nat := 0.
Definition parents_default : nat := 1.

(** The object a value stands for.  Python has no reference to nothing;
    an address the heap does not hold reads as [None]. *)
Definition deref (heap : gmap nat pyval) (v : pyval) : pyval :=
  match v with
  | PRef a => default PNone (heap !! a)
  | _ => v
  end.

(** [bool(v)], as an [if v:] or [not v] evaluates it. *)
Definition truthy (heap : gmap nat pyval) (v : pyval) : bool :=
  match deref heap v with
  | PNone => false
  | PBool b => b
  | PInt z => negb (z =? 0)%Z
  | PFloat f => negb (PrimFloat.eqb f PrimFloat.zero)
  | PStr s => negb (String.eqb s EmptyString)
  | PList l => match l with [] => false | _ :: _ => true end
  | PDict d => negb (bool_decide (d = ∅))
  | PClient _ => true
  | PRef _ => true
  end.

(** [obj[key]] for a string [key]. *)
Definition getitem (heap : gmap nat pyval) (obj : pyval) (key : string)
  : exn + pyval :=
  match deref heap obj with
  | PDict d => match d !! key with
               | Some v => inr v
               | None => inl (KeyError key)
               end
  | _ => inl TypeError
  end.

(** ** The runtime interface *)

(** What [json], [uuid] and [boto3] do is not in the repository.
    - [json_loads s] is [json.loads(s)] for a [str]; [inl] when it raises.
    - [json_dumps v] is [json.dumps(v)].
    - [uuid4 n] is the value of [str(uuid.uuid4())] the [n]-th time the
      process evaluates it.
    - [boto3_client service] is [boto3.client(service)]: a client handle,
      or the error raised (no region, no credentials file, ...).
    - [store] is the state of the DynamoDB service and [put_item] one
      [client.put_item(TableName=..., Item=...)]: the acknowledgement or
      the error, and the state afterwards.  The heap is passed so that
      the service can read a list the item refers to; it cannot write
      it. *)
Class Runtime := {
  store : Type;
  json_loads : string → exn + pyval;
  json_dumps : pyval → exn + string;
  uuid4 : nat → string;
  boto3_client : string → exn + nat;
  put_item : nat → store → gmap nat pyval → pyval → pyval
             → (exn + pyval) * store;
}.

(** ** Interpreter state *)

Record world `{Runtime} := World {
  uuid_count : nat;             (* how many uuid4() values were drawn *)
  heap : gmap nat pyval;        (* shared objects, by address *)
  db : store;                   (* the DynamoDB service *)
  trace : list event;           (* boto3 calls made so far *)
}.
Arguments World {_} _ _ _ _.

(** The heap right after [db/db.py] is imported. *)
Definition module_heap : gmap nat pyval :=
  <[parents_default := PList []]> (<[children_default := PList []]> ∅).

Definition defaults_intact (h : gmap nat pyval) : Prop :=
  h !! children_default = Some (PList []) ∧
  h !! parents_default = Some (PList []).

(** ** The monad: state [Σ], result or exception *)

Definition Py (Σ A : Type) : Type := Σ → (exn + A) * Σ.

Definition raise {Σ A} (e : exn) : Py Σ A := λ σ, (inl e, σ).
Definition gets {Σ A} (f : Σ → A) : Py Σ A := λ σ, (inr (f σ), σ).
Definition modify {Σ} (f : Σ → Σ) : Py Σ unit := λ σ, (inr tt, f σ).
Definition lift {Σ A} (r : exn + A) : Py Σ A := λ σ, (r, σ).

(** An exception skips the rest and keeps the state reached so far. *)
#[export] Instance Py_ret {Σ} : MRet (Py Σ) := λ A a σ, (inr a, σ).
#[export] Instance Py_bind {Σ} : MBind (Py Σ) := λ A B k m σ,
  match m σ with
  | (inr a, σ') => k a σ'
  | (inl e, σ') => (inl e, σ')
  end.

(** ** Primitive operations on the world *)

Section primitives.
Context `{RT : Runtime}.

Definition py_truthy (v : pyval) : Py world bool :=
  gets (λ w, truthy (heap w) v).

Definition py_getitem (obj : pyval) (key : string) : Py world pyval :=
  h ← gets heap; lift (getitem h obj key).

(** [json.loads(x)]: a [str] is parsed, anything else of this value
    type is a TypeError. *)
Definition py_json_loads (x : pyval) : Py world pyval :=
  h ← gets heap;
  match deref h x with
  | PStr s => lift (json_loads s)
  | _ => raise TypeError
  end.

Definition py_json_dumps (v : pyval) : Py world pyval :=
  s ← lift (json_dumps v); mret (PStr s).

(** [str(uuid.uuid4())]: the next value of the generator. *)
Definition py_uuid4_str : Py world string :=
  n ← gets uuid_count;
  modify (λ w, World (S (uuid_count w)) (heap w) (db w) (trace w));;
  mret (uuid4 n).

(** [boto3.client(service)]. *)
Definition py_boto3_client (service : string) : Py world pyval :=
  modify (λ w, World (uuid_count w) (heap w) (db w)
                     (trace w ++ [NewClient service]));;
  h ← lift (boto3_client service);
  mret (PClient h).

(** [client.put_item(TableName=t, Item=item)]: the method exists on a
    boto3 client only. *)
Definition py_put_item (client t item : pyval) : Py world pyval :=
  match client with
  | PClient c =>
      λ w, let '(r, db') := put_item c (db w) (heap w) t item in
           (r, World (uuid_count w) (heap w) db'
                     (trace w ++ [PutItem c t item]))
  | _ => raise (AttributeError "put_item")
  end.
End primitives.

(** ** [src/db/db.py]: class [DynamoDB] *)

(** An instance: its two attributes. *)
Record DynamoDB := {
  client : pyval;
  table_name : pyval;
}.

(** A method body runs on the instance it is called on and on the world:
    an assignment to [self.x] stays done when a later statement raises. *)
Abbreviation method := (Py (DynamoDB * world)).

Section gateway.
Context `{RT : Runtime}.

Definition world_op {A} (m : Py world A) : method A :=
  λ '(self, w), let '(r, w') := m w in (r, (self, w')).

Definition get_attr {A} (f : DynamoDB → A) : method A :=
  gets (λ '(self, _), f self).

Definition set_client (c : pyval) : method unit :=
  modify (λ '(self, w),
            ({| client := c; table_name := table_name self |}, w)).

(** [DynamoDB(table_name=...)]: a new instance, initialised by
    [__init__]; when [boto3.client] raises there is no instance. *)
Definition __init__ (table_name : pyval) : Py world DynamoDB :=
  c ← py_boto3_client "dynamodb";
  mret {| client := c; table_name := table_name |}.

Definition _init_dynamodb_if_needed : method unit :=
  c ← get_attr client;
  set ← world_op (py_truthy c);
  if negb (set : bool) then
    c' ← world_op (py_boto3_client "dynamodb");
    set_client c'
  else mret tt.

(** [put_person(self, name, children=[], parents=[])]: an omitted
    argument ([None] here) is bound to the default object of its
    parameter. *)
Definition put_person (name : pyval) (children parents : option pyval)
  : method pyval :=
  let children := default (PRef children_default) children in
  let parents := default (PRef parents_default) parents in
  _init_dynamodb_if_needed;;
  id ← world_op py_uuid4_str;
  let item : gmap string pyval :=
    <["name" := PDict {[ "S" := name ]}]>
      {[ "id" := PDict {[ "S" := PStr id ]} ]} in
  has_children ← world_op (py_truthy children);
  let item : gmap string pyval :=
    if (has_children : bool)
    then <["children" := PDict {["SS" := children]}]> item
    else item in
  has_parents ← world_op (py_truthy parents);
  let item : gmap string pyval :=
    if (has_parents : bool)
    then <["parents" := PDict {["SS" := parents]}]> item
    else item in
  c ← get_attr client;
  t ← get_attr table_name;
  world_op (py_put_item c t (PDict item)).

(** ** [src/add_coaching_node.py] *)

(** [obj.m(...)] from the handler: [obj] is a local of the handler,
    gone when the handler returns. *)
Definition call {A} (obj : DynamoDB) (m : method A) : Py world A :=
  λ w, let '(r, (_, w')) := m (obj, w) in (r, w').

Definition add_coaching_node (event context : pyval) : Py world pyval :=
  body ← py_getitem event "body";
  request_body ← py_json_loads body;
  type ← py_getitem request_body "type";
  dynamo_db ← __init__ type;
  name ← py_getitem request_body "name";
  children ← py_getitem request_body "children";
  parents ← py_getitem request_body "parents";
  response ← call dynamo_db
               (put_person name (Some children) (Some parents));
  body ← py_json_dumps response;
  mret (PDict (<["body" := body]> {["statusCode" := PInt 200]})).
End gateway.

(** ** Vocabulary of the statements *)

Section vocabulary.
Context `{RT : Runtime}.

(** The object a parameter with a default is bound to. *)
Definition bound (default_addr : nat) (arg : option pyval) : pyval :=
  default (PRef default_addr) arg.

(** The dict lines 17 to 24 of [db/db.py] build, from the identifier
    drawn and the objects [name], [children], [parents] are bound to. *)
Definition person_item (id : string) (h : gmap nat pyval)
    (name children parents : pyval) : gmap string pyval :=
  let item : gmap string pyval :=
    <["name" := PDict {[ "S" := name ]}]>
      {[ "id" := PDict {[ "S" := PStr id ]} ]} in
  let item : gmap string pyval :=
    if truthy h children
    then <["children" := PDict {[ "SS" := children ]}]> item
    else item in
  if truthy h parents
  then <["parents" := PDict {[ "SS" := parents ]}]> item
  else item.

(** The response the handler builds around a serialised acknowledgement. *)
Definition ok_response (body : string) : pyval :=
  PDict (<["body" := PStr body]> {[ "statusCode" := PInt 200 ]}).

(** [event['body']] is the text [s]. *)
Definition carries (h : gmap nat pyval) (event : pyval) (s : string) : Prop :=
  ∃ body, getitem h event "body" = inr body ∧ deref h body = PStr s.

(** The decoded body [rb] has the four fields the handler reads. *)
Definition has_fields (h : gmap nat pyval)
    (rb type name children parents : pyval) : Prop :=
  getitem h rb "type" = inr type ∧
  getitem h rb "name" = inr name ∧
  getitem h rb "children" = inr children ∧
  getitem h rb "parents" = inr parents.

End vocabulary.

(** ** Invocations in a row *)

Section process.
Context `{RT : Runtime}.


End process.

(** ** A runtime that computes *)

(** A runtime small enough to run: a JSON reader and writer for ASCII
    texts without floating-point numbers (fractions, exponents, NaN,
    Infinity) and without unicode escapes, written after what CPython's
    [json] does on such texts (a text outside the fragment is refused);
    a UUID generator that counts; and a DynamoDB that holds, per
    existing table, the list of items put into it. *)
Module Ref.

(** The double quote, code 34. *)
Abbreviation dquote := (Ascii false true false false false true false false).

Definition is_ws (c : ascii) : bool :=
  let n := nat_of_ascii c in
  ((n =? 32) || (n =? 9) || (n =? 10) || (n =? 13))%nat.

Fixpoint skip_ws (s : list ascii) : list ascii :=
  match s with
  | c :: r => if is_ws c then skip_ws r else s
  | [] => []
  end.

Definition digit (c : ascii) : option Z :=
  let n := nat_of_ascii c in
  if ((48 <=? n) && (n <=? 57))%nat then Some (Z.of_nat (n - 48)) else None.

Fixpoint read_digits (acc : Z) (s : list ascii) : Z * list ascii :=
  match s with
  | c :: r => match digit c with
              | Some d => read_digits (acc * 10 + d) r
              | None => (acc, s)
              end
  | [] => (acc, [])
  end.

(** [0], or a non-empty run of digits that does not start with [0]. *)
Definition read_nat (s : list ascii) : option (Z * list ascii) :=
  match s with
  | c :: r =>
      match digit c with
      | Some 0%Z => Some (0%Z, r)
      | Some d => Some (read_digits d r)
      | None => None
      end
  | [] => None
  end.

(** What follows an integer must not continue it into a fraction, an
    exponent or a second number. *)
Definition ends_number (s : list ascii) : bool :=
  match s with
  | c :: _ =>
      let n := nat_of_ascii c in
      negb ((n =? 46) || (n =? 101) || (n =? 69)
            || ((48 <=? n) && (n <=? 57)))%nat
  | [] => true
  end.

Definition read_int (s : list ascii) : option (pyval * list ascii) :=
  let signed :=
    match s with
    | "-"%char :: r => '(z, r') ← read_nat r; Some ((- z)%Z, r')
    | _ => read_nat s
    end in
  '(z, r) ← signed;
  if ends_number r then Some (PInt z, r) else None.

Definition unescape (c : ascii) : option ascii :=
  match nat_of_ascii c with
  | 34 => Some (ascii_of_nat 34)     (* quote *)
  | 92 => Some (ascii_of_nat 92)     (* backslash *)
  | 47 => Some (ascii_of_nat 47)     (* slash *)
  | 98 => Some (ascii_of_nat 8)      (* backspace *)
  | 102 => Some (ascii_of_nat 12)    (* form feed *)
  | 110 => Some (ascii_of_nat 10)    (* line feed *)
  | 114 => Some (ascii_of_nat 13)    (* carriage return *)
  | 116 => Some (ascii_of_nat 9)     (* tab *)
  | _ => None
  end.

(** The characters of a string literal after its opening quote, up to
    and including the closing one; [acc] is what was read, reversed. *)
Fixpoint read_chars (acc : list ascii) (s : list ascii)
  : option (string * list ascii) :=
  match s with
  | [] => None
  | c :: r =>
      match nat_of_ascii c with
      | 34 => Some (string_of_list_ascii (rev acc), r)
      | 92 => match r with
              | e :: r' => match unescape e with
                           | Some x => read_chars (x :: acc) r'
                           | None => None
                           end
              | [] => None
              end
      | n => if (n <? 32)%nat then None else read_chars (c :: acc) r
      end
  end.

Definition starts (p : string) (s : list ascii) : option (list ascii) :=
  let p := list_ascii_of_string p in
  if bool_decide (take (length p) s = p) then Some (drop (length p) s)
  else None.

Fixpoint read_value (fuel : nat) (s : list ascii)
  : option (pyval * list ascii) :=
  match fuel with
  | O => None
  | S fuel =>
      match skip_ws s with
      | "["%char :: r =>
          match skip_ws r with
          | "]"%char :: r' => Some (PList [], r')
          | _ => read_elements fuel [] r
          end
      | "{"%char :: r =>
          match skip_ws r with
          | "}"%char :: r' => Some (PDict ∅, r')
          | _ => read_members fuel ∅ r
          end
      | dquote :: r =>
          '(str, r') ← read_chars [] r; Some (PStr str, r')
      | s' =>
          match starts "null" s', starts "true" s', starts "false" s' with
          | Some r, _, _ => Some (PNone, r)
          | _, Some r, _ => Some (PBool true, r)
          | _, _, Some r => Some (PBool false, r)
          | _, _, _ => read_int s'
          end
      end
  end
with read_elements (fuel : nat) (acc : list pyval) (s : list ascii)
  : option (pyval * list ascii) :=
  match fuel with
  | O => None
  | S fuel =>
      '(v, r) ← read_value fuel s;
      match skip_ws r with
      | ","%char :: r' => read_elements fuel (acc ++ [v]) r'
      | "]"%char :: r' => Some (PList (acc ++ [v]), r')
      | _ => None
      end
  end
with read_members (fuel : nat) (acc : gmap string pyval) (s : list ascii)
  : option (pyval * list ascii) :=
  match fuel with
  | O => None
  | S fuel =>
      match skip_ws s with
      | dquote :: r =>
          '(k, r1) ← read_chars [] r;
          match skip_ws r1 with
          | ":"%char :: r2 =>
              '(v, r3) ← read_value fuel r2;
              match skip_ws r3 with
              | ","%char :: r4 => read_members fuel (<[k := v]> acc) r4
              | "}"%char :: r4 => Some (PDict (<[k := v]> acc), r4)
              | _ => None
              end
          | _ => None
          end
      | _ => None
      end
  end.

(** One value, white space around it, nothing after it.  Every call
    of a reader that uses up fuel also reads a character. *)
Definition loads (s : string) : exn + pyval :=
  let cs := list_ascii_of_string s in
  match read_value (2 * length cs + 2) cs with
  | Some (v, r) => match skip_ws r with
                   | [] => inr v
                   | _ => inl JSONDecodeError
                   end
  | None => inl JSONDecodeError
  end.
(** A JSON text written with single quotes in place of double ones. *)
Definition sq (s : string) : string :=
  string_of_list_ascii
    ((λ c, if Ascii.eqb c "'"%char then dquote else c)
       <$> list_ascii_of_string s).

Definition hex_digit (n : N) : ascii :=
  ascii_of_N (if (n <? 10)%N then 48 + n else 87 + n).

(** The last [k] hexadecimal digits of [n]. *)
Fixpoint hex (k : nat) (n : N) : list ascii :=
  match k with
  | O => []
  | S k => (hex k (n / 16) ++ [hex_digit (n mod 16)])
  end.

(** One character inside a string literal, as [json.dumps] writes it
    (ensure_ascii): [None] for a byte of a non-ASCII character. *)
Definition escape (c : ascii) : option (list ascii) :=
  let n := nat_of_ascii c in
  let bs := ascii_of_nat 92 in
  match n with
  | 34 => Some [bs; dquote]
  | 92 => Some [bs; bs]
  | 10 => Some [bs; "n"%char]
  | 13 => Some [bs; "r"%char]
  | 9 => Some [bs; "t"%char]
  | 8 => Some [bs; "b"%char]
  | 12 => Some [bs; "f"%char]
  | _ =>
      if ((32 <=? n) && (n <=? 126))%nat then Some [c]
      else if (n <? 128)%nat then
        Some ([bs; "u"%char] ++ hex 4 (N.of_nat n))
      else None
  end.

Definition write_string (s : string) : option (list ascii) :=
  body ← mapM escape (list_ascii_of_string s);
  Some ([dquote] ++ concat body ++ [dquote]).

Fixpoint join (sep : list ascii) (parts : list (list ascii)) : list ascii :=
  match parts with
  | [] => []
  | [p] => p
  | p :: rest => (p ++ sep ++ join sep rest)
  end.

(** [None] where [json.dumps] raises (a client object) or the value is
    outside the fragment (a float).  The keys of a dict come out in the
    order of the map, which is the order of insertion for a dict of one
    key. *)
Fixpoint write_value (v : pyval) : option (list ascii) :=
  match v with
  | PNone => Some (list_ascii_of_string "null")
  | PBool true => Some (list_ascii_of_string "true")
  | PBool false => Some (list_ascii_of_string "false")
  | PInt z => Some (list_ascii_of_string (pretty z))
  | PStr s => write_string s
  | PList l =>
      parts ← mapM write_value l;
      Some ("["%char :: join [","%char; " "%char] parts ++ ["]"%char])
  | PDict d =>
      parts ← map_fold
        (λ k v acc,
           ps ← acc; k' ← write_string k; v' ← write_value v;
           Some (ps ++ [k' ++ [":"%char; " "%char] ++ v']))
        (Some []) d;
      Some ("{"%char :: join [","%char; " "%char] parts ++ ["}"%char])
  | PFloat _ | PClient _ | PRef _ => None
  end.

Definition dumps (v : pyval) : exn + string :=
  match write_value v with
  | Some cs => inr (string_of_list_ascii cs)
  | None => inl TypeError
  end.

(** The [n]-th identifier handed out: version 4, variant 8, the rest
    counts. *)
Definition uuid (n : nat) : string :=
  "00000000-0000-4000-8000-" +:+ string_of_list_ascii (hex 12 (N.of_nat n)).

Definition client_for (service : string) : exn + nat :=
  if String.eqb service "dynamodb" then inr 0
  else inl (BotoError "UnknownServiceError").

(** What a successful PutItem answers. *)
Definition ack : pyval :=
  PDict {[ "ResponseMetadata" := PDict {[ "HTTPStatusCode" := PInt 200 ]} ]}.

(** The service: the items of each table that exists, oldest first. *)
Definition put (c : nat) (tables : gmap string (list pyval))
    (h : gmap nat pyval) (t item : pyval)
  : (exn + pyval) * gmap string (list pyval) :=
  match deref h t with
  | PStr name =>
      match tables !! name with
      | Some items => (inr ack, <[name := (items ++ [item])]> tables)
      | None => (inl (BotoError "ResourceNotFoundException"), tables)
      end
  | _ => (inl (BotoError "ParamValidationError"), tables)
  end.

Definition runtime : Runtime := {|
  store := gmap string (list pyval);
  json_loads := loads;
  json_dumps := dumps;
  uuid4 := uuid;
  boto3_client := client_for;
  put_item := put;
|}.

(** The world of a fresh process in which the table [people] exists. *)
Definition start : @world runtime :=
  @World runtime 0 module_heap {[ "people" := [] ]} [].

(** The event API Gateway hands over for a request with this body. *)
Definition request (body : string) : pyval :=
  PDict {[ "body" := PStr body ]}.

(** A gateway on the table [people], as [DynamoDB('people')] makes it. *)
Definition gateway : DynamoDB :=
  {| client := PClient 0; table_name := PStr "people" |}.

(** Three request bodies: complete, without the two lists, cut short. *)
Definition ada : string :=
  sq "{'type': 'people', 'name': 'Ada', 'children': [], 'parents': ['Grace']}".
Definition ada_only : string := sq "{'type': 'people', 'name': 'Ada'}".
Definition cut_short : string := sq "{'type': 'people', 'name': ".

(** [ada], decoded. *)
Definition ada_fields : gmap string pyval :=
  <["parents" := PList [PStr "Grace"]]>
    (<["children" := PList []]>
       (<["name" := PStr "Ada"]> {[ "type" := PStr "people" ]})).

(** A world in which the caller holds a list by reference. *)
Definition siblings : nat := 7.
Definition start_with_list : @world runtime :=
  @World runtime 0 (<[siblings := PList [PStr "Bo"]]> module_heap)
    {[ "people" := [] ]} [].

(** The same runtime on a machine where boto3 finds no region. *)
Definition offline : Runtime := {|
  store := gmap string (list pyval);
  json_loads := loads;
  json_dumps := dumps;
  uuid4 := uuid;
  boto3_client := λ _, inl (BotoError "NoRegionError");
  put_item := put;
|}.
Definition start_offline : @world offline :=
  @World offline 0 module_heap {[ "people" := [] ]} [].


(** A gateway whose client was taken away. *)
Definition unset : DynamoDB :=
  {| client := PNone; table_name := PStr "people" |}.

(** The event of a request without a body. *)
Definition bodyless : pyval := PDict {[ "body" := PNone ]}.

(** More bodies: not an object; no [name]; no [type]; a table that does
    not exist; [ada] with a field more. *)
Definition ada_list : string := sq "['Ada']".
Definition type_only : string := sq "{'type': 'people'}".
Definition name_only : string := sq "{'name': 'Ada'}".
Definition ghost : string :=
  sq "{'type': 'ghosts', 'name': 'Ada', 'children': [], 'parents': []}".
Definition ada_nick : string :=
  sq "{'nick': 'Countess', 'type': 'people', 'name': 'Ada', 'children': [], 'parents': ['Grace']}".
Definition ada_nick_fields : gmap string pyval :=
  <["nick" := PStr "Countess"]> ada_fields.

(** The response to a request that went through. *)
Definition ok_200 : pyval :=
  PDict (<["body" :=
             PStr (sq "{'ResponseMetadata': {'HTTPStatusCode': 200}}")]>
           {[ "statusCode" := PInt 200 ]}).
End Ref.

(** * Properties *)

(** ** Running the monad *)

Section run.
Context {Σ : Type}.

Lemma bind_inr {A B} (m : Py Σ A) (k : A → Py Σ B) σ a σ' :
  m σ = (inr a, σ') → (m ≫= k) σ = k a σ'.
Proof. intros H. unfold mbind, Py_bind. by rewrite H. Qed.

Lemma bind_inl {A B} (m : Py Σ A) (k : A → Py Σ B) σ e σ' :
  m σ = (inl e, σ') → (m ≫= k) σ = (inl e, σ').
Proof. intros H. unfold mbind, Py_bind. by rewrite H. Qed.

Lemma bind_inr_inv {A B} (m : Py Σ A) (k : A → Py Σ B) σ b σ' :
  (m ≫= k) σ = (inr b, σ') →
  ∃ a σ1, m σ = (inr a, σ1) ∧ k a σ1 = (inr b, σ').
Proof.
  unfold mbind, Py_bind. destruct (m σ) as [[e|a] σ1]; [done|]. eauto.
Qed.

(** Two continuations that agree where the first part ends. *)
Lemma bind_ext {A B} (m : Py Σ A) (k k' : A → Py Σ B) σ :
  (∀ a σ', m σ = (inr a, σ') → k a σ' = k' a σ') →
  (m ≫= k) σ = (m ≫= k') σ.
Proof.
  intros H. unfold mbind, Py_bind.
  destruct (m σ) as [[e|a] σ'] eqn:Hm; [done|]. by apply H.
Qed.
End run.

(** Unfolds the monad and the primitive operations, then computes. *)
Ltac py_unfold :=
  unfold mbind, mret, Py_bind, Py_ret, world_op, get_attr, set_client, call,
    py_truthy, py_getitem, py_json_loads, py_json_dumps, py_uuid4_str,
    py_boto3_client, py_put_item, gets, modify, lift, raise in *.
Ltac py_simpl := repeat progress (py_unfold; cbn in *).

(** ** Values *)

Lemma truthy_list h l : truthy h (PList l) = true ↔ l ≠ [].
Proof. unfold truthy; cbn. by destruct l. Qed.

(** A default that is still the empty list it was created as is false. *)
Lemma truthy_default h addr :
  h !! addr = Some (PList []) → truthy h (PRef addr) = false.
Proof. intros H. unfold truthy, deref. by rewrite H. Qed.

Lemma getitem_dict h d key :
  getitem h (PDict d) key
  = match d !! key with Some v => inr v | None => inl (KeyError key) end.
Proof. done. Qed.

Lemma bound_Some addr v : bound addr (Some v) = v.
Proof. done. Qed.

Lemma truthy_bound_list h addr (arg : option (list pyval)) :
  h !! addr = Some (PList []) →
  truthy h (bound addr (PList <$> arg)) = true ↔ ∃ l, arg = Some l ∧ l ≠ [].
Proof.
  intros Hd. destruct arg as [l|]; cbn -[truthy].
  - rewrite truthy_list. split; [eauto|by intros (? & [= <-] & ?)].
  - rewrite (truthy_default _ _ Hd). split; [done|by intros (? & ? & ?)].
Qed.

Lemma is_Some_if {A} (b : bool) (x : A) :
  is_Some (if b then Some x else None) ↔ b = true.
Proof. destruct b; [by split; eauto|]. split; [by intros []|done]. Qed.

(** ** The item *)

Lemma person_item_id id h name children parents :
  person_item id h name children parents !! "id"
  = Some (PDict {[ "S" := PStr id ]}).
Proof. unfold person_item. repeat case_match; by simplify_map_eq. Qed.

Lemma person_item_name id h name children parents :
  person_item id h name children parents !! "name"
  = Some (PDict {[ "S" := name ]}).
Proof. unfold person_item. repeat case_match; by simplify_map_eq. Qed.

Lemma person_item_children id h name children parents :
  person_item id h name children parents !! "children"
  = if truthy h children then Some (PDict {[ "SS" := children ]}) else None.
Proof. unfold person_item. repeat case_match; by simplify_map_eq. Qed.

Lemma person_item_parents id h name children parents :
  person_item id h name children parents !! "parents"
  = if truthy h parents then Some (PDict {[ "SS" := parents ]}) else None.
Proof. unfold person_item. repeat case_match; by simplify_map_eq. Qed.

(** ** The gateway: [db/db.py] *)

Section gateway_facts.
Context `{RT : Runtime}.

Lemma init_run t w :
  __init__ t w =
    let w' := World (uuid_count w) (heap w) (db w)
                    (trace w ++ [NewClient "dynamodb"]) in
    match boto3_client "dynamodb" with
    | inr c => (inr {| client := PClient c; table_name := t |}, w')
    | inl e => (inl e, w')
    end.
Proof. unfold __init__. py_simpl. by destruct (boto3_client _). Qed.

Lemma init_inr table w g w1 :
  __init__ table w = (inr g, w1) →
  ∃ c, boto3_client "dynamodb" = inr c ∧
       g = {| client := PClient c; table_name := table |}.
Proof.
  rewrite init_run. destruct (boto3_client _) as [e|c]; [done|].
  intros [= <- _]. eauto.
Qed.

Lemma init_if_needed_set self w :
  truthy (heap w) (client self) = true →
  _init_dynamodb_if_needed (self, w) = (inr tt, (self, w)).
Proof. intros H. unfold _init_dynamodb_if_needed. py_simpl. by rewrite H. Qed.

Lemma init_if_needed_heap self w r self' w' :
  _init_dynamodb_if_needed (self, w) = (r, (self', w')) →
  heap w' = heap w.
Proof.
  unfold _init_dynamodb_if_needed. py_simpl.
  destruct (truthy _ _); py_simpl.
  - by intros [= _ _ <-].
  - destruct (boto3_client _); by intros [= _ _ <-].
Qed.

(** A gateway whose client is set runs [put_person] straight through:
    one identifier drawn, one item built, one [put_item]. *)
Lemma put_person_run self c name children parents w :
  client self = PClient c →
  put_person name children parents (self, w) =
    let item := PDict (person_item (uuid4 (uuid_count w)) (heap w) name
                         (bound children_default children)
                         (bound parents_default parents)) in
    let '(r, db') := put_item c (db w) (heap w) (table_name self) item in
    (r, (self, World (S (uuid_count w)) (heap w) db'
                     (trace w ++ [PutItem c (table_name self) item]))).
Proof.
  intros Hc. destruct self as [cl t], w as [n h d tr]; simpl in *; subst cl.
  unfold put_person, _init_dynamodb_if_needed, person_item, bound.
  py_simpl. by destruct (put_item _ _ _ _ _).
Qed.

Lemma put_person_trace self c name children parents w :
  client self = PClient c →
  trace (put_person name children parents (self, w)).2.2
  = trace w ++ [PutItem c (table_name self)
      (PDict (person_item (uuid4 (uuid_count w)) (heap w) name
                (bound children_default children)
                (bound parents_default parents)))].
Proof.
  intros Hc. rewrite (put_person_run _ c) by done.
  cbv zeta. by destruct (put_item _ _ _ _ _).
Qed.

Lemma put_person_state self c name children parents w :
  client self = PClient c →
  let run := put_person name children parents (self, w) in
  run.2.1 = self ∧
  uuid_count run.2.2 = S (uuid_count w) ∧
  heap run.2.2 = heap w.
Proof.
  intros Hc. rewrite (put_person_run _ c) by done.
  cbv zeta. by destruct (put_item _ _ _ _ _).
Qed.

(** No path through [put_person] writes the heap, client set or not. *)
Lemma put_person_heap name children parents self w :
  heap (put_person name children parents (self, w)).2.2 = heap w.
Proof.
  destruct self as [cl t], w as [n h d tr].
  unfold put_person, _init_dynamodb_if_needed. py_simpl.
  repeat (case_match; py_simpl; simplify_eq); try done.
Qed.

Lemma put_person_omitted name children parents self w :
  defaults_intact (heap w) →
  put_person name children parents (self, w) =
  put_person name (Some (default (PList []) children))
                  (Some (default (PList []) parents)) (self, w).
Proof.
  intros [Hc Hp]. unfold put_person.
  apply bind_ext. intros [] [self' w'] Hinit.
  apply init_if_needed_heap in Hinit. rewrite <- Hinit in Hc, Hp.
  destruct w' as [n h d tr]. cbn in Hc, Hp.
  destruct children, parents; cbn [default bound]; py_simpl;
    rewrite ?(truthy_default _ _ Hc), ?(truthy_default _ _ Hp); done.
Qed.

(** C1. Whatever it is called with, [put_person] on a gateway whose
    client is set puts one item; the item has the attributes [id] and
    [name]; it has the attribute [children] exactly when a non-empty
    list was supplied for [children] (not when the argument is omitted
    or is the empty list), and likewise for [parents]. *)
Theorem put_person_item_attributes self c name
    (children parents : option (list pyval)) w :
  client self = PClient c →
  defaults_intact (heap w) →
  ∃ item,
    trace (put_person name (PList <$> children) (PList <$> parents)
             (self, w)).2.2
    = trace w ++ [PutItem c (table_name self) (PDict item)] ∧
    is_Some (item !! "id") ∧
    is_Some (item !! "name") ∧
    (is_Some (item !! "children") ↔ ∃ l, children = Some l ∧ l ≠ []) ∧
    (is_Some (item !! "parents") ↔ ∃ l, parents = Some l ∧ l ≠ []).
Proof.
  intros Hc [Hdc Hdp]. eexists. split; [by apply put_person_trace|].
  rewrite person_item_id, person_item_name,
    person_item_children, person_item_parents, !is_Some_if.
  split; [done|]. split; [done|].
  split; by apply truthy_bound_list.
Qed.




(** C9. A gateway that [__init__] returned has its client set to a
    client object, which is true in every heap; on it
    [_init_dynamodb_if_needed] does nothing, and [put_person] leaves
    the gateway as it was and makes one boto3 call, the [put_item]: no
    second client is created. *)
Theorem client_set_after_init table w g w1 :
  __init__ table w = (inr g, w1) →
  (∃ c, client g = PClient c) ∧
  (∀ h, truthy h (client g) = true) ∧
  (∀ w2, _init_dynamodb_if_needed (g, w2) = (inr tt, (g, w2))) ∧
  (∀ name children parents w2,
     let run := put_person name children parents (g, w2) in
     run.2.1 = g ∧
     ∃ c item, trace run.2.2 = trace w2 ++ [PutItem c (table_name g) item]).
Proof.
  intros (c & _ & ->)%init_inr. split; [by eexists|]. split; [done|].
  split; [intros w2; by apply init_if_needed_set|].
  intros name children parents w2 run. split.
  - by eapply put_person_state.
  - eexists c, _. by apply put_person_trace.
Qed.

(** C10. In a world whose two default lists are still empty, a call
    that omits [children] or [parents] does exactly what the call with
    an explicit empty list in that place does (same result, same item
    put, same world, so the same id); no call writes the heap, whatever
    its arguments refer to, so the defaults are still empty afterwards
    and the next call finds them as the first did. *)
Theorem omitted_argument_is_empty_list self name children parents w :
  defaults_intact (heap w) →
  let run := put_person name children parents (self, w) in
  run = put_person name (Some (default (PList []) children))
                        (Some (default (PList []) parents)) (self, w) ∧
  heap run.2.2 = heap w ∧
  defaults_intact (heap run.2.2) ∧
  (∀ name' children' parents',
     put_person name' children' parents' run.2
     = put_person name' (Some (default (PList []) children'))
                        (Some (default (PList []) parents')) run.2).
Proof.
  intros Hd run. split; [by apply put_person_omitted|].
  assert (heap run.2.2 = heap w) as Hh by apply put_person_heap.
  split; [done|]. split; [by rewrite Hh|].
  intros name' children' parents'.
  destruct run as [r [self' w']]. apply put_person_omitted.
  cbn in *. by rewrite Hh.
Qed.
End gateway_facts.

(** The gateway claims on the reference runtime. *)

Lemma put_person_item_attributes_witness :
  let children : option (list pyval) := Some [] in
  let parents : option (list pyval) := Some [PStr "Grace"] in
  client Ref.gateway = PClient 0 ∧
  defaults_intact (heap Ref.start) ∧
  ∃ item,
    trace (@put_person Ref.runtime (PStr "Ada") (PList <$> children)
             (PList <$> parents) (Ref.gateway, Ref.start)).2.2
    = trace Ref.start ++ [PutItem 0 (table_name Ref.gateway) (PDict item)] ∧
    is_Some (item !! "id") ∧
    is_Some (item !! "name") ∧
    (is_Some (item !! "children") ↔ ∃ l, children = Some l ∧ l ≠ []) ∧
    (is_Some (item !! "parents") ↔ ∃ l, parents = Some l ∧ l ≠ []).
Proof.
  split; [reflexivity|]. split; [split; reflexivity|].
  apply (@put_person_item_attributes Ref.runtime);
    [reflexivity|split; reflexivity].
Defined.





Lemma client_set_after_init_witness :
  (@__init__ Ref.runtime (PStr "people") Ref.start).1 = inr Ref.gateway ∧
  (∃ c, client Ref.gateway = PClient c) ∧
  (∀ h, truthy h (client Ref.gateway) = true) ∧
  (∀ w2, @_init_dynamodb_if_needed Ref.runtime (Ref.gateway, w2)
         = (inr tt, (Ref.gateway, w2))) ∧
  (∀ name children parents w2,
     let run := @put_person Ref.runtime name children parents
                  (Ref.gateway, w2) in
     run.2.1 = Ref.gateway ∧
     ∃ c item,
       trace run.2.2 = trace w2 ++ [PutItem c (table_name Ref.gateway) item]).
Proof.
  split; [reflexivity|].
  apply (@client_set_after_init Ref.runtime (PStr "people") Ref.start _
           (@__init__ Ref.runtime (PStr "people") Ref.start).2).
  reflexivity.
Defined.

Lemma omitted_argument_is_empty_list_witness :
  let run := @put_person Ref.runtime (PStr "Ada") None None
               (Ref.gateway, Ref.start) in
  defaults_intact (heap Ref.start) ∧
  run = @put_person Ref.runtime (PStr "Ada") (Some (PList []))
          (Some (PList [])) (Ref.gateway, Ref.start) ∧
  heap run.2.2 = heap Ref.start ∧
  defaults_intact (heap run.2.2) ∧
  (∀ name' children' parents',
     @put_person Ref.runtime name' children' parents' run.2
     = @put_person Ref.runtime name'
         (Some (default (PList []) children'))
         (Some (default (PList []) parents')) run.2).
Proof.
  split; [split; reflexivity|].
  apply (@omitted_argument_is_empty_list Ref.runtime _ (PStr "Ada") None None
           Ref.start).
  split; reflexivity.
Defined.

(** A list passed by reference goes into the item as that reference
    and is the same list afterwards. *)
Example put_person_by_reference :
  let run := @put_person Ref.runtime (PStr "Ada") (Some (PRef Ref.siblings))
               None (Ref.gateway, Ref.start_with_list) in
  heap run.2.2 = heap Ref.start_with_list ∧
  trace run.2.2
  = [PutItem 0 (PStr "people")
       (PDict (<["children" := PDict {[ "SS" := PRef Ref.siblings ]}]>
                 (<["name" := PDict {[ "S" := PStr "Ada" ]}]>
                    {[ "id" := PDict {[ "S" := PStr (Ref.uuid 0) ]} ]})))].
Proof. cbv zeta. split; vm_compute; reflexivity. Qed.

(** ** The handler: [add_coaching_node.py] *)

Section handler_facts.
Context `{RT : Runtime}.

Lemma py_getitem_run obj key w :
  py_getitem obj key w = (getitem (heap w) obj key, w).
Proof. by py_simpl. Qed.

Lemma py_json_loads_inr x w rb w' :
  py_json_loads x w = (inr rb, w') →
  w' = w ∧ ∃ s, deref (heap w) x = PStr s ∧ json_loads s = inr rb.
Proof.
  py_simpl. destruct (deref (heap w) x); try done.
  intros [= H ->]. eauto.
Qed.

(** The handler on a request that has a body, decodes, has the four
    fields and gets its client: what is left open is what the service
    answers and whether the answer serialises. *)
Lemma add_coaching_node_run event context w s rb type name children parents c :
  carries (heap w) event s →
  json_loads s = inr rb →
  has_fields (heap w) rb type name children parents →
  boto3_client "dynamodb" = inr c →
  add_coaching_node event context w =
    let item := PDict (person_item (uuid4 (uuid_count w)) (heap w)
                         name children parents) in
    let '(r, db') := put_item c (db w) (heap w) type item in
    let w' := World (S (uuid_count w)) (heap w) db'
                (trace w ++ [NewClient "dynamodb"; PutItem c type item]) in
    match r with
    | inl e => (inl e, w')
    | inr response =>
        match json_dumps response with
        | inl e => (inl e, w')
        | inr out => (inr (ok_response out), w')
        end
    end.
Proof.
  intros (body & Hbody & Hs) Hrb (Ht & Hn & Hc & Hp) Hcl.
  unfold add_coaching_node.
  erewrite bind_inr; last by (py_simpl; rewrite Hbody).
  erewrite bind_inr; last by (py_simpl; rewrite Hs; py_simpl; rewrite Hrb).
  erewrite bind_inr; last by (py_simpl; rewrite Ht).
  erewrite bind_inr; last by (rewrite init_run, Hcl).
  erewrite bind_inr; last by (py_simpl; rewrite Hn).
  erewrite bind_inr; last by (py_simpl; rewrite Hc).
  erewrite bind_inr; last by (py_simpl; rewrite Hp).
  unfold mbind at 1, Py_bind at 1, call.
  rewrite (put_person_run _ c) by done. cbn.
  destruct (put_item _ _ _ _ _) as [[e|response] db'];
    rewrite <- (assoc_L (++)); cbn; [done|].
  unfold py_json_dumps, ok_response. py_simpl.
  by destruct (json_dumps response).
Qed.

(** A handler that returns went through all of the above. *)
Lemma add_coaching_node_inr_inv event context w r w' :
  add_coaching_node event context w = (inr r, w') →
  ∃ s rb type name children parents c,
    carries (heap w) event s ∧
    json_loads s = inr rb ∧
    has_fields (heap w) rb type name children parents ∧
    boto3_client "dynamodb" = inr c.
Proof.
  unfold add_coaching_node. intros H.
  apply bind_inr_inv in H as (body & w1 & H1 & H).
  apply bind_inr_inv in H as (rb & w2 & H2 & H).
  apply bind_inr_inv in H as (type & w3 & H3 & H).
  apply bind_inr_inv in H as (g & w4 & H4 & H).
  apply bind_inr_inv in H as (name & w5 & H5 & H).
  apply bind_inr_inv in H as (children & w6 & H6 & H).
  apply bind_inr_inv in H as (parents & w7 & H7 & _).
  rewrite py_getitem_run in H1. injection H1 as H1 <-.
  apply py_json_loads_inr in H2 as (-> & s & Hs & H2).
  rewrite py_getitem_run in H3. injection H3 as H3 <-.
  rewrite init_run in H4.
  destruct (boto3_client "dynamodb") as [e|c] eqn:Hc; [done|].
  injection H4 as <- <-. cbn in *.
  rewrite py_getitem_run in H5. injection H5 as H5 <-.
  rewrite py_getitem_run in H6. injection H6 as H6 <-.
  rewrite py_getitem_run in H7. injection H7 as H7 <-.
  exists s, rb, type, name, children, parents, c.
  unfold carries, has_fields. eauto 10.
Qed.

(** The handler when reading [children], or after it [parents], raises:
    the client exists by then, nothing was put. *)
Lemma add_coaching_node_field_error event context w s rb type name c e :
  carries (heap w) event s →
  json_loads s = inr rb →
  getitem (heap w) rb "type" = inr type →
  getitem (heap w) rb "name" = inr name →
  boto3_client "dynamodb" = inr c →
  (getitem (heap w) rb "children" = inl e ∨
   (∃ ch, getitem (heap w) rb "children" = inr ch) ∧
   getitem (heap w) rb "parents" = inl e) →
  add_coaching_node event context w =
    (inl e, World (uuid_count w) (heap w) (db w)
                  (trace w ++ [NewClient "dynamodb"])).
Proof.
  intros (body & Hbody & Hs) Hrb Ht Hn Hcl Hmiss. unfold add_coaching_node.
  erewrite bind_inr; last by rewrite py_getitem_run, Hbody.
  erewrite bind_inr; last by (py_simpl; rewrite Hs; py_simpl; rewrite Hrb).
  erewrite bind_inr; last by rewrite py_getitem_run, Ht.
  erewrite bind_inr; last by (rewrite init_run, Hcl).
  erewrite bind_inr; last by rewrite py_getitem_run; cbn; rewrite Hn.
  destruct Hmiss as [Hc|[[ch Hc] Hp]].
  - apply bind_inl. by rewrite py_getitem_run; cbn; rewrite Hc.
  - erewrite bind_inr; last by rewrite py_getitem_run; cbn; rewrite Hc.
    apply bind_inl. by rewrite py_getitem_run; cbn; rewrite Hp.
Qed.

(** C3. When the body of the event is a text that [json.loads] refuses,
    the handler raises that error and the world is what it was: no
    client made, no [put_item] called, the service untouched. *)
Theorem malformed_body_fails_before_store event context w s err :
  carries (heap w) event s →
  json_loads s = inl err →
  add_coaching_node event context w = (inl err, w).
Proof.
  intros (body & Hbody & Hs) Hrb. unfold add_coaching_node.
  erewrite bind_inr; last by rewrite py_getitem_run, Hbody.
  apply bind_inl. py_simpl. by rewrite Hs, Hrb.
Qed.

(** C4. For a request whose decoded body has the four fields, and once
    the client exists, the gateway is made with the value of [type] as
    its table name, and the one [put_item] the handler makes has that
    same value as its [TableName]. *)
Theorem write_targets_type_table event context w s rb
    type name children parents c :
  carries (heap w) event s →
  json_loads s = inr rb →
  has_fields (heap w) rb type name children parents →
  boto3_client "dynamodb" = inr c →
  (__init__ type w).1 = inr {| client := PClient c; table_name := type |} ∧
  ∃ item,
    trace (add_coaching_node event context w).2
    = trace w ++ [NewClient "dynamodb"; PutItem c type item].
Proof.
  intros Hev Hrb Hf Hc. split; [by rewrite init_run, Hc|].
  rewrite (add_coaching_node_run _ _ _ _ _ _ _ _ _ _ Hev Hrb Hf Hc).
  eexists. cbv zeta. destruct (put_item _ _ _ _ _) as [[e|response] db'].
  - done.
  - by destruct (json_dumps response).
Qed.

(** C5. The handler returns a value exactly when the body decodes, the
    four fields are there, the client is made, [put_item] answers and
    the answer serialises; the value is then the dict with [statusCode]
    200 and, as [body], the serialisation of that answer.  In every
    other case it raises, so no other status is ever returned. *)
Theorem handler_returns_200_with_ack event context w r w' :
  add_coaching_node event context w = (inr r, w') ↔
  ∃ s rb type name children parents c response db' out,
    carries (heap w) event s ∧
    json_loads s = inr rb ∧
    has_fields (heap w) rb type name children parents ∧
    boto3_client "dynamodb" = inr c ∧
    let item := PDict (person_item (uuid4 (uuid_count w)) (heap w)
                         name children parents) in
    put_item c (db w) (heap w) type item = (inr response, db') ∧
    json_dumps response = inr out ∧
    r = PDict (<["body" := PStr out]> {[ "statusCode" := PInt 200 ]}) ∧
    w' = World (S (uuid_count w)) (heap w) db'
           (trace w ++ [NewClient "dynamodb"; PutItem c type item]).
Proof.
  split.
  - intros H.
    destruct (add_coaching_node_inr_inv _ _ _ _ _ H)
      as (s & rb & type & name & children & parents & c
          & Hev & Hrb & Hf & Hc).
    rewrite (add_coaching_node_run _ _ _ _ _ _ _ _ _ _ Hev Hrb Hf Hc) in H.
    cbv zeta in H.
    destruct (put_item _ _ _ _ _) as [[e|response] db'] eqn:Hput; [done|].
    destruct (json_dumps response) as [e|out] eqn:Hout; [done|].
    injection H as <- <-.
    exists s, rb, type, name, children, parents, c, response, db', out.
    cbv zeta. by rewrite Hput.
  - intros (s & rb & type & name & children & parents & c & response & db'
            & out & Hev & Hrb & Hf & Hc & Hput & Hout & -> & ->).
    rewrite (add_coaching_node_run _ _ _ _ _ _ _ _ _ _ Hev Hrb Hf Hc).
    cbv zeta. by rewrite Hput, Hout.
Qed.

(** C8. An invocation that returns made two boto3 calls: it created its
    client, which touches no table, and it called [put_item] once; the
    service is in the state that one [put_item] left it in. *)
Theorem one_put_item_per_success event context w r w' :
  add_coaching_node event context w = (inr r, w') →
  ∃ c table item,
    trace w' = trace w ++ [NewClient "dynamodb"; PutItem c table item] ∧
    db w' = (put_item c (db w) (heap w) table item).2.
Proof.
  intros H.
  destruct (add_coaching_node_inr_inv _ _ _ _ _ H)
    as (s & rb & type & name & children & parents & c
        & Hev & Hrb & Hf & Hc).
  rewrite (add_coaching_node_run _ _ _ _ _ _ _ _ _ _ Hev Hrb Hf Hc) in H.
  cbv zeta in H.
  destruct (put_item _ _ _ _ _) as [[e|response] db'] eqn:Hput; [done|].
  destruct (json_dumps response); [done|].
  injection H as _ <-.
  eexists c, type, _. split; [done|]. by rewrite Hput.
Qed.

(** C2, as the code has it. The handler reads all four fields.  For a
    body that decodes to an object with [type] and [name]: without
    [children] the handler raises KeyError for [children], and with
    [children] but without [parents] it raises KeyError for [parents],
    in both cases after the client was made and before anything is
    put; with both present (empty lists included, which are then left
    out of the item) it returns 200 as soon as [put_item] answers and
    the answer serialises. *)
Theorem handler_needs_children_and_parents event context w s d type name c :
  carries (heap w) event s →
  json_loads s = inr (PDict d) →
  d !! "type" = Some type →
  d !! "name" = Some name →
  boto3_client "dynamodb" = inr c →
  let w1 := World (uuid_count w) (heap w) (db w)
              (trace w ++ [NewClient "dynamodb"]) in
  (d !! "children" = None →
   add_coaching_node event context w = (inl (KeyError "children"), w1)) ∧
  (is_Some (d !! "children") → d !! "parents" = None →
   add_coaching_node event context w = (inl (KeyError "parents"), w1)) ∧
  (∀ children parents response db' out,
     d !! "children" = Some children →
     d !! "parents" = Some parents →
     let item := person_item (uuid4 (uuid_count w)) (heap w)
                   name children parents in
     put_item c (db w) (heap w) type (PDict item) = (inr response, db') →
     json_dumps response = inr out →
     add_coaching_node event context w
     = (inr (PDict (<["body" := PStr out]> {[ "statusCode" := PInt 200 ]})),
        World (S (uuid_count w)) (heap w) db'
          (trace w ++ [NewClient "dynamodb"; PutItem c type (PDict item)])) ∧
     (children = PList [] → item !! "children" = None) ∧
     (parents = PList [] → item !! "parents" = None)).
Proof.
  intros Hev Hrb Ht Hn Hc w1.
  assert (getitem (heap w) (PDict d) "type" = inr type) as Ht'
    by by rewrite getitem_dict, Ht.
  assert (getitem (heap w) (PDict d) "name" = inr name) as Hn'
    by by rewrite getitem_dict, Hn.
  split; [|split].
  - intros Hch.
    apply (add_coaching_node_field_error _ _ _ _ _ _ _ _ _ Hev Hrb Ht' Hn' Hc).
    left. by rewrite getitem_dict, Hch.
  - intros [ch Hch] Hpa.
    apply (add_coaching_node_field_error _ _ _ _ _ _ _ _ _ Hev Hrb Ht' Hn' Hc).
    right. rewrite !getitem_dict, Hch, Hpa. eauto.
  - intros children parents response db' out Hch Hpa item Hput Hout.
    split; [|split].
    + assert (has_fields (heap w) (PDict d) type name children parents)
        as Hf by (unfold has_fields; by rewrite !getitem_dict, Ht, Hn, Hch, Hpa).
      rewrite (add_coaching_node_run _ _ _ _ _ _ _ _ _ _ Hev Hrb Hf Hc).
      cbv zeta. fold item. by rewrite Hput, Hout.
    + intros ->. unfold item. by rewrite person_item_children.
    + intros ->. unfold item. by rewrite person_item_parents.
Qed.
End handler_facts.

(** The handler claims on the reference runtime. *)

Lemma carries_request h body : carries h (Ref.request body) body.
Proof. exists (PStr body). split; reflexivity. Qed.

Lemma loads_ada : Ref.loads Ref.ada = inr (PDict Ref.ada_fields).
Proof. vm_compute. reflexivity. Qed.

Lemma malformed_body_fails_before_store_witness :
  Ref.loads Ref.cut_short = inl JSONDecodeError ∧
  @add_coaching_node Ref.runtime (Ref.request Ref.cut_short) PNone Ref.start
  = (inl JSONDecodeError, Ref.start).
Proof.
  split; [vm_compute; reflexivity|].
  apply (@malformed_body_fails_before_store Ref.runtime _ PNone Ref.start
           Ref.cut_short).
  - exists (PStr Ref.cut_short). split; reflexivity.
  - vm_compute; reflexivity.
Defined.

Lemma write_targets_type_table_witness :
  (@__init__ Ref.runtime (PStr "people") Ref.start).1 = inr Ref.gateway ∧
  ∃ item,
    trace (@add_coaching_node Ref.runtime (Ref.request Ref.ada) PNone
             Ref.start).2
    = trace Ref.start
      ++ [NewClient "dynamodb"; PutItem 0 (PStr "people") item].
Proof.
  eapply (@write_targets_type_table Ref.runtime _ PNone Ref.start Ref.ada _
            (PStr "people") (PStr "Ada") (PList []) (PList [PStr "Grace"]) 0).
  - apply carries_request.
  - apply loads_ada.
  - repeat split.
  - reflexivity.
Defined.

Lemma ada_returns :
  @add_coaching_node Ref.runtime (Ref.request Ref.ada) PNone Ref.start
  = (inr Ref.ok_200,
     (@add_coaching_node Ref.runtime (Ref.request Ref.ada) PNone
        Ref.start).2).
Proof.
  etransitivity; [apply surjective_pairing|].
  f_equal; vm_compute; reflexivity.
Qed.

Lemma one_put_item_per_success_witness :
  let run := @add_coaching_node Ref.runtime (Ref.request Ref.ada) PNone
               Ref.start in
  run.1 = inr Ref.ok_200 ∧
  ∃ c table item,
    trace run.2
    = trace Ref.start ++ [NewClient "dynamodb"; PutItem c table item] ∧
    db run.2
    = (@put_item Ref.runtime c (db Ref.start) (heap Ref.start) table item).2.
Proof.
  split; [cbv zeta; vm_compute; reflexivity|].
  exact (@one_put_item_per_success Ref.runtime (Ref.request Ref.ada) PNone
           Ref.start Ref.ok_200 _ ada_returns).
Defined.

(** C2 as the specification has it fails on a body with [type] and
    [name] only: it decodes, and the handler raises KeyError for
    [children], having made its client and put nothing. *)
Lemma omitted_children_raises :
  let run := @add_coaching_node Ref.runtime (Ref.request Ref.ada_only) PNone
               Ref.start in
  (∃ d, Ref.loads Ref.ada_only = inr (PDict d) ∧
        d !! "type" = Some (PStr "people") ∧
        d !! "name" = Some (PStr "Ada") ∧
        d !! "children" = None ∧
        d !! "parents" = None) ∧
  run.1 = inl (KeyError "children") ∧
  trace run.2 = [NewClient "dynamodb"] ∧
  db run.2 = db Ref.start.
Proof.
  cbv zeta. split.
  - eexists. split; [vm_compute; reflexivity|]. by vm_compute.
  - split; [vm_compute; reflexivity|]. split; vm_compute; reflexivity.
Qed.

Lemma handler_needs_children_and_parents_witness :
  (@add_coaching_node Ref.runtime (Ref.request Ref.ada) PNone Ref.start).1
  = inr Ref.ok_200.
Proof.
  pose proof (@handler_needs_children_and_parents Ref.runtime
                (Ref.request Ref.ada) PNone Ref.start Ref.ada _
                (PStr "people") (PStr "Ada") 0
                (carries_request _ _) loads_ada eq_refl eq_refl eq_refl)
    as (_ & _ & H).
  edestruct (H (PList []) (PList [PStr "Grace"])) as (-> & _ & _);
    [reflexivity|reflexivity|vm_compute; reflexivity|vm_compute; reflexivity|].
  reflexivity.
Defined.

(** The example of the specification, end to end: the stored item has
    the name, no [children], the parents and an id; the handler answers
    200 with the acknowledgement as JSON. *)
Example ada_end_to_end :
  let run := @add_coaching_node Ref.runtime (Ref.request Ref.ada) PNone
               Ref.start in
  run.1 = inr Ref.ok_200 ∧
  db run.2 !! "people"
  = Some [PDict (<["parents" := PDict {[ "SS" := PList [PStr "Grace"] ]}]>
                  (<["name" := PDict {[ "S" := PStr "Ada" ]}]>
                     {[ "id" := PDict {[ "S" := PStr (Ref.uuid 0) ]} ]}))].
Proof. cbv zeta. split; vm_compute; reflexivity. Qed.

(** * Further properties *)

(** ** Every path through the handler *)

Section handler_paths.
Context `{RT : Runtime}.

(** The handler as a function of what the runtime answers, stage by
    stage. *)
Lemma add_coaching_node_unfold event context w :
  add_coaching_node event context w =
    let w1 := World (uuid_count w) (heap w) (db w)
                (trace w ++ [NewClient "dynamodb"]) in
    match getitem (heap w) event "body" with
    | inl e => (inl e, w)
    | inr body =>
    match deref (heap w) body with
    | PStr s =>
    match json_loads s with
    | inl e => (inl e, w)
    | inr rb =>
    match getitem (heap w) rb "type" with
    | inl e => (inl e, w)
    | inr type =>
    match boto3_client "dynamodb" with
    | inl e => (inl e, w1)
    | inr c =>
    match getitem (heap w) rb "name" with
    | inl e => (inl e, w1)
    | inr name =>
    match getitem (heap w) rb "children" with
    | inl e => (inl e, w1)
    | inr children =>
    match getitem (heap w) rb "parents" with
    | inl e => (inl e, w1)
    | inr parents =>
        let item := PDict (person_item (uuid4 (uuid_count w)) (heap w)
                             name children parents) in
        let '(r, db') := put_item c (db w) (heap w) type item in
        let w2 := World (S (uuid_count w)) (heap w) db'
                    (trace w ++ [NewClient "dynamodb"; PutItem c type item]) in
        match r with
        | inl e => (inl e, w2)
        | inr response =>
            match json_dumps response with
            | inl e => (inl e, w2)
            | inr out => (inr (ok_response out), w2)
            end
        end
    end end end end end end
    | _ => (inl TypeError, w)
    end end.
Proof.
  cbv zeta.
  destruct (getitem (heap w) event "body") as [e|body] eqn:Hb.
  { unfold add_coaching_node. apply bind_inl. by rewrite py_getitem_run, Hb. }
  destruct (deref (heap w) body) as [| | | |s| | | |] eqn:Hd;
    try (unfold add_coaching_node;
         erewrite bind_inr; last (by rewrite py_getitem_run, Hb);
         apply bind_inl; py_simpl; by rewrite Hd).
  assert (carries (heap w) event s) as Hev by (by exists body).
  destruct (json_loads s) as [e|rb] eqn:Hl.
  { unfold add_coaching_node.
    erewrite bind_inr; last by rewrite py_getitem_run, Hb.
    apply bind_inl. py_simpl. by rewrite Hd, Hl. }
  assert (py_json_loads body w = (inr rb, w)) as Hloads.
  { py_simpl. by rewrite Hd, Hl. }
  destruct (getitem (heap w) rb "type") as [e|type] eqn:Ht.
  { unfold add_coaching_node.
    erewrite bind_inr; last by rewrite py_getitem_run, Hb.
    erewrite bind_inr; last exact Hloads.
    apply bind_inl. by rewrite py_getitem_run, Ht. }
  destruct (boto3_client "dynamodb") as [e|c] eqn:Hc.
  { unfold add_coaching_node.
    erewrite bind_inr; last by rewrite py_getitem_run, Hb.
    erewrite bind_inr; last exact Hloads.
    erewrite bind_inr; last by rewrite py_getitem_run, Ht.
    apply bind_inl. by rewrite init_run, Hc. }
  destruct (getitem (heap w) rb "name") as [e|name] eqn:Hn.
  { unfold add_coaching_node.
    erewrite bind_inr; last by rewrite py_getitem_run, Hb.
    erewrite bind_inr; last exact Hloads.
    erewrite bind_inr; last by rewrite py_getitem_run, Ht.
    erewrite bind_inr; last by rewrite init_run, Hc.
    apply bind_inl. rewrite py_getitem_run. cbn. by rewrite Hn. }
  destruct (getitem (heap w) rb "children") as [e|children] eqn:Hch.
  { apply (add_coaching_node_field_error _ _ _ _ _ _ _ _ _ Hev Hl Ht Hn Hc).
    by left. }
  destruct (getitem (heap w) rb "parents") as [e|parents] eqn:Hpa.
  { apply (add_coaching_node_field_error _ _ _ _ _ _ _ _ _ Hev Hl Ht Hn Hc).
    right. eauto. }
  by apply (add_coaching_node_run _ _ _ _ _ _ _ _ _ _ Hev Hl).
Qed.
End handler_paths.

Lemma getitem_inl h obj key e :
  getitem h obj key = inl e → e = KeyError key ∨ e = TypeError.
Proof.
  unfold getitem. destruct (deref h obj); try (intros [= <-]; by right).
  destruct (_ !! _); [done|]. intros [= <-]. by left.
Qed.

Section handler_extras.
Context `{RT : Runtime}.

(** X1. Whatever the event is, one invocation leaves the heap as it
    was and does one of three things: nothing at all; construct the
    client and stop, with no identifier drawn and the service untouched;
    or construct the client, draw one identifier and call [put_item]
    exactly once.  It never puts twice and never puts without having
    constructed its client first. *)
Theorem handler_effect_envelope event context w :
  let w' := (add_coaching_node event context w).2 in
  heap w' = heap w ∧
  (w' = w ∨
   (uuid_count w' = uuid_count w ∧ db w' = db w ∧
    trace w' = trace w ++ [NewClient "dynamodb"]) ∨
   (∃ c t item,
      uuid_count w' = S (uuid_count w) ∧
      trace w' = trace w ++ [NewClient "dynamodb"; PutItem c t item] ∧
      db w' = (put_item c (db w) (heap w) t item).2)).
Proof.
  cbv zeta. rewrite add_coaching_node_unfold. cbv zeta.
  repeat case_match; simplify_eq; cbn;
    try (split; [done|]; by left);
    try (split; [done|]; right; by left).
  all: split; [done|]; right; right; do 3 eexists;
    split; [done|]; split; [done|].
  all: match goal with H : put_item _ _ _ _ _ = _ |- _ => by rewrite H end.
Qed.

(** X2. An event without a [body] entry, or whose body is not a string
    (a request sent without a body arrives with [None]), makes the
    handler raise KeyError for [body] or TypeError at its first
    statement; the world is untouched. *)
Theorem body_unreadable event context w :
  (∀ s, ¬ carries (heap w) event s) →
  ∃ e, add_coaching_node event context w = (inl e, w) ∧
       (e = KeyError "body" ∨ e = TypeError).
Proof.
  intros Hno. rewrite add_coaching_node_unfold. cbv zeta.
  destruct (getitem (heap w) event "body") as [e|body] eqn:Hb.
  { exists e. split; [done|]. by eapply getitem_inl. }
  destruct (deref (heap w) body) as [| | | |s| | | |] eqn:Hd;
    try (exists TypeError; split; [done|by right]).
  destruct (Hno s). by exists body.
Qed.

(** X3. When the body decodes to something that is not an object, or
    to an object without [type], the handler raises (TypeError, or
    KeyError for [type]) before the gateway is constructed: no client,
    nothing put, the world untouched. *)
Theorem type_unreadable event context w s rb e :
  carries (heap w) event s →
  json_loads s = inr rb →
  getitem (heap w) rb "type" = inl e →
  add_coaching_node event context w = (inl e, w) ∧
  (e = KeyError "type" ∨ e = TypeError).
Proof.
  intros (body & Hb & Hd) Hl Ht. split; [|by eapply getitem_inl].
  rewrite add_coaching_node_unfold. cbv zeta. by rewrite Hb, Hd, Hl, Ht.
Qed.

(** X4. The gateway is constructed as soon as [type] is read, before
    the other fields are looked at: when [boto3.client] raises, the
    handler raises that error, whether or not [name], [children] and
    [parents] are there, and nothing is put. *)
Theorem client_failure_comes_first event context w s rb type e :
  carries (heap w) event s →
  json_loads s = inr rb →
  getitem (heap w) rb "type" = inr type →
  boto3_client "dynamodb" = inl e →
  add_coaching_node event context w
  = (inl e, World (uuid_count w) (heap w) (db w)
                  (trace w ++ [NewClient "dynamodb"])).
Proof.
  intros (body & Hb & Hd) Hl Ht Hc.
  rewrite add_coaching_node_unfold. cbv zeta. by rewrite Hb, Hd, Hl, Ht, Hc.
Qed.

(** X5. A body with [type] but without [name] (or whose fields cannot
    be read) makes the handler raise after the client was constructed
    and before any identifier is drawn or anything is put. *)
Theorem name_unreadable event context w s rb type c e :
  carries (heap w) event s →
  json_loads s = inr rb →
  getitem (heap w) rb "type" = inr type →
  boto3_client "dynamodb" = inr c →
  getitem (heap w) rb "name" = inl e →
  add_coaching_node event context w
  = (inl e, World (uuid_count w) (heap w) (db w)
                  (trace w ++ [NewClient "dynamodb"])) ∧
  (e = KeyError "name" ∨ e = TypeError).
Proof.
  intros (body & Hb & Hd) Hl Ht Hc Hn. split; [|by eapply getitem_inl].
  rewrite add_coaching_node_unfold. cbv zeta.
  by rewrite Hb, Hd, Hl, Ht, Hc, Hn.
Qed.

(** X6. When [put_item] raises, the handler raises the same error and
    returns no response; the one [put_item] and the identifier drawn
    for it are spent, the service is in the state that call left, and
    there is no second attempt. *)
Theorem store_failure_propagates event context w s rb
    type name children parents c e db' :
  carries (heap w) event s →
  json_loads s = inr rb →
  has_fields (heap w) rb type name children parents →
  boto3_client "dynamodb" = inr c →
  let item := PDict (person_item (uuid4 (uuid_count w)) (heap w)
                       name children parents) in
  put_item c (db w) (heap w) type item = (inl e, db') →
  add_coaching_node event context w
  = (inl e, World (S (uuid_count w)) (heap w) db'
              (trace w ++ [NewClient "dynamodb"; PutItem c type item])).
Proof.
  intros Hev Hl Hf Hc item Hput.
  rewrite (add_coaching_node_run _ _ _ _ _ _ _ _ _ _ Hev Hl Hf Hc).
  cbv zeta. fold item. by rewrite Hput.
Qed.

(** X7. Of a request the handler uses the body of the event and, in
    the decoded body, the fields [type], [name], [children] and
    [parents]: two requests whose bodies decode and agree on these four
    reads have the same outcome, whatever else the bodies, the events
    and the contexts hold. *)
Theorem only_four_fields_matter event1 event2 context1 context2 w
    s1 s2 rb1 rb2 :
  carries (heap w) event1 s1 →
  carries (heap w) event2 s2 →
  json_loads s1 = inr rb1 →
  json_loads s2 = inr rb2 →
  (∀ key, key ∈ ["type"; "name"; "children"; "parents"] →
          getitem (heap w) rb1 key = getitem (heap w) rb2 key) →
  add_coaching_node event1 context1 w = add_coaching_node event2 context2 w.
Proof.
  intros (b1 & Hb1 & Hd1) (b2 & Hb2 & Hd2) Hl1 Hl2 Hsame.
  rewrite !add_coaching_node_unfold. cbv zeta.
  rewrite Hb1, Hd1, Hl1, Hb2, Hd2, Hl2.
  rewrite !(Hsame "type"), !(Hsame "name"), !(Hsame "children"),
    !(Hsame "parents") by set_solver.
  done.
Qed.
End handler_extras.

(** ** More on the gateway *)

Lemma person_item_dom id h name children parents :
  dom (person_item id h name children parents)
  = ({[ "id"; "name" ]} : gset string)
    ∪ (if truthy h children then {[ "children" ]} else ∅)
    ∪ (if truthy h parents then {[ "parents" ]} else ∅).
Proof.
  unfold person_item.
  destruct (truthy h children), (truthy h parents);
    rewrite ?dom_insert_L, dom_singleton_L; set_solver.
Qed.

Section gateway_extras.
Context `{RT : Runtime}.

(** X8. [put_person] does not check what it is given.  The item has
    [id] and [name], [children] exactly when the value supplied is
    true in Python's sense, [parents] likewise, and no other attribute.
    A true value is stored under [SS] as it is, a list or not; a false
    one ([None], zero, an empty string or dict) is left out as an empty
    list is; the name is stored under [S] whatever it is. *)
Theorem put_person_item_unchecked self c name children parents w :
  client self = PClient c →
  ∃ item,
    trace (put_person name (Some children) (Some parents) (self, w)).2.2
    = trace w ++ [PutItem c (table_name self) (PDict item)] ∧
    dom item
    = ({[ "id"; "name" ]} : gset string)
      ∪ (if truthy (heap w) children then {[ "children" ]} else ∅)
      ∪ (if truthy (heap w) parents then {[ "parents" ]} else ∅) ∧
    item !! "name" = Some (PDict {[ "S" := name ]}) ∧
    (truthy (heap w) children = true →
     item !! "children" = Some (PDict {[ "SS" := children ]})) ∧
    (truthy (heap w) parents = true →
     item !! "parents" = Some (PDict {[ "SS" := parents ]})).
Proof.
  intros Hc. eexists. split; [by apply put_person_trace|].
  rewrite !bound_Some, person_item_dom, person_item_name,
    person_item_children, person_item_parents.
  split; [done|]. split; [done|]. split; by intros ->.
Qed.

(** X9. On a gateway whose client is set, [put_person] returns what
    its one [put_item] returned, a response or an exception, unchanged,
    and leaves the service as that call left it.  Also when the call
    raised, the identifier is spent and the gateway is as before. *)
Theorem put_person_returns_store_answer self c name children parents w :
  client self = PClient c →
  let run := put_person name children parents (self, w) in
  ∃ item,
    trace run.2.2 = trace w ++ [PutItem c (table_name self) item] ∧
    run.1 = (put_item c (db w) (heap w) (table_name self) item).1 ∧
    db run.2.2 = (put_item c (db w) (heap w) (table_name self) item).2 ∧
    run.2.1 = self ∧
    uuid_count run.2.2 = S (uuid_count w).
Proof.
  intros Hc run. subst run. rewrite (put_person_run _ c) by done.
  cbv zeta.
  exists (PDict (person_item (uuid4 (uuid_count w)) (heap w) name
                   (bound children_default children)
                   (bound parents_default parents))).
  by destruct (put_item _ _ _ _ _) as [r db'].
Qed.

(** X11. When [_init_dynamodb_if_needed] returns, the client is set
    and the table name is what it was, and running it again does
    nothing.  If the client was not set before, it was created by one
    [boto3.client('dynamodb')]. *)
Theorem init_if_needed_establishes_client self w self' w' :
  _init_dynamodb_if_needed (self, w) = (inr tt, (self', w')) →
  truthy (heap w') (client self') = true ∧
  table_name self' = table_name self ∧
  _init_dynamodb_if_needed (self', w') = (inr tt, (self', w')) ∧
  (truthy (heap w) (client self) = false →
   trace w' = trace w ++ [NewClient "dynamodb"] ∧
   ∃ c, boto3_client "dynamodb" = inr c ∧ client self' = PClient c).
Proof.
  intros H.
  assert (truthy (heap w') (client self') = true
          ∧ table_name self' = table_name self
          ∧ (truthy (heap w) (client self) = false →
             trace w' = trace w ++ [NewClient "dynamodb"] ∧
             ∃ c, boto3_client "dynamodb" = inr c ∧ client self' = PClient c))
    as (Ht & Hn & Hnew).
  { revert H. unfold _init_dynamodb_if_needed. py_simpl.
    destruct (truthy (heap w) (client self)) eqn:Hset; py_simpl.
    - intros [= <- <-]. by rewrite Hset.
    - destruct (boto3_client "dynamodb") as [e|c]; [done|].
      intros [= <- <-]. cbn. split; [done|]. split; [done|].
      intros _. split; [done|]. by exists c. }
  split; [done|]. split; [done|]. split; [|done].
  by apply init_if_needed_set.
Qed.

(** X12. [put_person] on a gateway whose client is not set constructs
    one first.  When that raises, [put_person] raises the same error,
    with no identifier drawn and nothing put.  Otherwise it goes on as
    on the gateway with the new client, which the gateway keeps. *)
Theorem put_person_creates_missing_client self name children parents w :
  truthy (heap w) (client self) = false →
  let run := put_person name children parents (self, w) in
  let w1 := World (uuid_count w) (heap w) (db w)
              (trace w ++ [NewClient "dynamodb"]) in
  (∀ e, boto3_client "dynamodb" = inl e → run = (inl e, (self, w1))) ∧
  (∀ c, boto3_client "dynamodb" = inr c →
     let g := {| client := PClient c; table_name := table_name self |} in
     run = put_person name children parents (g, w1) ∧ run.2.1 = g).
Proof.
  intros Hunset run w1. subst run.
  assert (∀ c, boto3_client "dynamodb" = inr c →
    put_person name children parents (self, w)
    = put_person name children parents
        ({| client := PClient c; table_name := table_name self |}, w1))
    as Hrun.
  { intros c Hc. unfold put_person.
    erewrite bind_inr.
    2:{ unfold _init_dynamodb_if_needed. py_simpl. rewrite Hunset. py_simpl.
        rewrite Hc. reflexivity. }
    erewrite (bind_inr _init_dynamodb_if_needed);
      [done|by apply init_if_needed_set]. }
  split.
  - intros e He. unfold put_person. apply bind_inl.
    unfold _init_dynamodb_if_needed. py_simpl. rewrite Hunset. py_simpl.
    by rewrite He.
  - intros c Hc g. split; [by apply Hrun|].
    rewrite (Hrun c Hc). by eapply put_person_state.
Qed.
End gateway_extras.

(** ** Requests in a row *)

Section process_extras.
Context `{RT : Runtime}.





End process_extras.

(** The further properties on the reference runtimes. *)

Lemma body_unreadable_witness :
  ∃ e, @add_coaching_node Ref.runtime Ref.bodyless PNone Ref.start
       = (inl e, Ref.start) ∧
       (e = KeyError "body" ∨ e = TypeError).
Proof.
  apply (@body_unreadable Ref.runtime Ref.bodyless PNone Ref.start).
  intros s (body & Hb & Hd). vm_compute in Hb. injection Hb as <-.
  discriminate Hd.
Defined.

Lemma type_unreadable_witness :
  @add_coaching_node Ref.runtime (Ref.request Ref.name_only) PNone Ref.start
  = (inl (KeyError "type"), Ref.start) ∧
  (KeyError "type" = KeyError "type" ∨ KeyError "type" = TypeError).
Proof.
  eapply (@type_unreadable Ref.runtime _ PNone Ref.start Ref.name_only).
  - apply carries_request.
  - vm_compute. reflexivity.
  - reflexivity.
Defined.

Lemma client_failure_comes_first_witness :
  @add_coaching_node Ref.offline (Ref.request Ref.type_only) PNone
    Ref.start_offline
  = (inl (BotoError "NoRegionError"),
     @World Ref.offline 0 module_heap {[ "people" := [] ]}
       [NewClient "dynamodb"]).
Proof.
  eapply (@client_failure_comes_first Ref.offline _ PNone Ref.start_offline
            Ref.type_only).
  - exists (PStr Ref.type_only). split; reflexivity.
  - vm_compute. reflexivity.
  - reflexivity.
  - reflexivity.
Defined.

Lemma name_unreadable_witness :
  @add_coaching_node Ref.runtime (Ref.request Ref.type_only) PNone Ref.start
  = (inl (KeyError "name"),
     @World Ref.runtime 0 module_heap {[ "people" := [] ]}
       [NewClient "dynamodb"]) ∧
  (KeyError "name" = KeyError "name" ∨ KeyError "name" = TypeError).
Proof.
  eapply (@name_unreadable Ref.runtime _ PNone Ref.start Ref.type_only).
  - apply carries_request.
  - vm_compute. reflexivity.
  - reflexivity.
  - reflexivity.
  - reflexivity.
Defined.

Lemma store_failure_propagates_witness :
  (@add_coaching_node Ref.runtime (Ref.request Ref.ghost) PNone Ref.start).1
  = inl (BotoError "ResourceNotFoundException").
Proof.
  erewrite (@store_failure_propagates Ref.runtime _ PNone Ref.start Ref.ghost
              _ (PStr "ghosts") (PStr "Ada") (PList []) (PList []) 0).
  - reflexivity.
  - apply carries_request.
  - vm_compute. reflexivity.
  - repeat split.
  - reflexivity.
  - vm_compute. reflexivity.
Defined.

Lemma only_four_fields_matter_witness :
  @add_coaching_node Ref.runtime (Ref.request Ref.ada) PNone Ref.start
  = @add_coaching_node Ref.runtime (Ref.request Ref.ada_nick) (PStr "warm")
      Ref.start.
Proof.
  apply (@only_four_fields_matter Ref.runtime _ _ _ _ Ref.start
           Ref.ada Ref.ada_nick
           (PDict Ref.ada_fields) (PDict Ref.ada_nick_fields)).
  - apply carries_request.
  - apply carries_request.
  - vm_compute. reflexivity.
  - vm_compute. reflexivity.
  - intros key Hkey.
    repeat (apply elem_of_cons in Hkey as [->|Hkey]; [reflexivity|]).
    by apply elem_of_nil in Hkey.
Defined.

Lemma put_person_item_unchecked_witness :
  ∃ item,
    trace (@put_person Ref.runtime (PInt 7) (Some (PStr "Bo")) (Some PNone)
             (Ref.gateway, Ref.start)).2.2
    = trace Ref.start ++ [PutItem 0 (table_name Ref.gateway) (PDict item)] ∧
    dom item
    = ({[ "id"; "name" ]} : gset string)
      ∪ (if truthy (heap Ref.start) (PStr "Bo")
         then {[ "children" ]} else ∅)
      ∪ (if truthy (heap Ref.start) PNone then {[ "parents" ]} else ∅) ∧
    item !! "name" = Some (PDict {[ "S" := PInt 7 ]}) ∧
    (truthy (heap Ref.start) (PStr "Bo") = true →
     item !! "children" = Some (PDict {[ "SS" := PStr "Bo" ]})) ∧
    (truthy (heap Ref.start) PNone = true →
     item !! "parents" = Some (PDict {[ "SS" := PNone ]})).
Proof.
  apply (@put_person_item_unchecked Ref.runtime Ref.gateway 0).
  reflexivity.
Defined.

Lemma put_person_returns_store_answer_witness :
  let run := @put_person Ref.runtime (PStr "Ada") None None
               (Ref.gateway, Ref.start) in
  ∃ item,
    trace run.2.2
    = trace Ref.start ++ [PutItem 0 (table_name Ref.gateway) item] ∧
    run.1 = (@put_item Ref.runtime 0 (db Ref.start) (heap Ref.start)
               (table_name Ref.gateway) item).1 ∧
    db run.2.2 = (@put_item Ref.runtime 0 (db Ref.start) (heap Ref.start)
                    (table_name Ref.gateway) item).2 ∧
    run.2.1 = Ref.gateway ∧
    uuid_count run.2.2 = S (uuid_count Ref.start).
Proof.
  apply (@put_person_returns_store_answer Ref.runtime Ref.gateway 0).
  reflexivity.
Defined.


Lemma init_if_needed_establishes_client_witness :
  let w' := @World Ref.runtime 0 module_heap {[ "people" := [] ]}
              [NewClient "dynamodb"] in
  truthy (heap w') (client Ref.gateway) = true ∧
  table_name Ref.gateway = table_name Ref.unset ∧
  @_init_dynamodb_if_needed Ref.runtime (Ref.gateway, w')
  = (inr tt, (Ref.gateway, w')) ∧
  (truthy (heap Ref.start) (client Ref.unset) = false →
   trace w' = trace Ref.start ++ [NewClient "dynamodb"] ∧
   ∃ c, @boto3_client Ref.runtime "dynamodb" = inr c ∧
        client Ref.gateway = PClient c).
Proof.
  apply (@init_if_needed_establishes_client Ref.runtime Ref.unset Ref.start).
  reflexivity.
Defined.

Lemma put_person_creates_missing_client_witness :
  let run := @put_person Ref.runtime (PStr "Ada") None None
               (Ref.unset, Ref.start) in
  let w1 := @World Ref.runtime (uuid_count Ref.start) (heap Ref.start)
              (db Ref.start) (trace Ref.start ++ [NewClient "dynamodb"]) in
  truthy (heap Ref.start) (client Ref.unset) = false ∧
  (∀ e, @boto3_client Ref.runtime "dynamodb" = inl e →
        run = (inl e, (Ref.unset, w1))) ∧
  (∀ c, @boto3_client Ref.runtime "dynamodb" = inr c →
     let g := {| client := PClient c; table_name := table_name Ref.unset |} in
     run = @put_person Ref.runtime (PStr "Ada") None None (g, w1) ∧
     run.2.1 = g).
Proof.
  split; [reflexivity|].
  apply (@put_person_creates_missing_client Ref.runtime Ref.unset).
  reflexivity.
Defined.
